(** * AI Receptionist API: shallow embedding and verified properties

    The development follows the two source files of the service:
    - [schemas.py]: the pydantic record definitions (Property, Faq,
      ConversationMessage, Conversation, Lead, BookingRequest);
    - [main.py]: the heuristic reply generator [generate_ai_reply] and the
      FastAPI route handlers.

    Python [str] values are represented by [string], holding the UTF-8
    encoding of the text.  Every keyword the reply generator searches for is
    plain ASCII, and UTF-8 never uses an ASCII byte inside the encoding of
    another character, so the byte-level substring test below coincides with
    Python's code-point-level [k in text].  Python [int] is [Z], [float] is
    the IEEE-754 binary64 type [float], [Optional[T]] is [option T]. *)

From Stdlib Require Import String Ascii List ZArith Bool Lia PrimFloat.
From Stdlib Require Import DecimalString.
Import ListNotations.
Open Scope list_scope.
Open Scope string_scope.

(** ** Python string primitives *)

(** [k in text] for two strings: [k] occurs as a contiguous run of [text].
    The empty string occurs in every string. *)
Fixpoint str_in (k text : string) : bool :=
  if String.prefix k text then true
  else match text with
       | EmptyString => false
       | String _ rest => str_in k rest
       end.

(** [any(k in text for k in keywords)]. *)
Definition any_in (keywords : list string) (text : string) : bool :=
  existsb (fun k => str_in k text) keywords.

(** Specification-level reading of "keyword [k] appears anywhere in [text]". *)
Definition occurs_in (k text : string) : Prop :=
  exists pre post, text = pre ++ k ++ post.

(** ** Heuristic reply generator ([main.py], [generate_ai_reply]) *)

Section HeuristicReply.

(** [str.lower] and [str.strip] are Unicode-aware built-ins of the Python
    runtime; the generator is defined over any implementation of them. *)
Variable lower : string -> string.
Variable strip : string -> string.

Definition generate_ai_reply (message : string) : string :=
  let text := strip (lower message) in
  if any_in ["check-in"; "check in"; "arrival"] text then
    "Check-in is at 3:00 PM. Early check-in is subject to availability."
  else if any_in ["check-out"; "check out"; "departure"] text then
    "Check-out is at 11:00 AM. Late check-out may be available upon request."
  else if any_in ["wifi"; "wi-fi"; "internet"] text then
    "Yes, complimentary high-speed Wi‑Fi is available throughout the property."
  else if any_in ["parking"; "car"] text then
    "Parking is available on-site. Please check with the front desk for rates and availability."
  else if any_in ["pet"; "dog"; "cat"] text then
    "We are pet-friendly for select rooms. A cleaning fee may apply."
  else if any_in ["pool"; "gym"; "fitness"; "spa"] text then
    "Our amenities include fitness center access from 6 AM to 10 PM."
  else if any_in ["rate"; "price"; "cost"] text then
    "Standard rates start from $89 per night before taxes and fees."
  else
    "Thanks for reaching out! How can I assist with your stay, booking, or questions today?".

End HeuristicReply.

(** *** The built-ins on ASCII text

    On text made of ASCII characters only, [str.lower] maps [A]..[Z] to
    [a]..[z] and leaves every other character alone, and [str.strip] removes
    the leading and trailing characters for which [str.isspace] holds: tab,
    line feed, vertical tab, form feed, carriage return, the four separators
    0x1C..0x1F and the space. *)

Definition ascii_lower_char (c : ascii) : ascii :=
  let n := nat_of_ascii c in
  if andb (Nat.leb 65 n) (Nat.leb n 90) then ascii_of_nat (n + 32) else c.

Fixpoint ascii_lower (s : string) : string :=
  match s with
  | EmptyString => EmptyString
  | String c rest => String (ascii_lower_char c) (ascii_lower rest)
  end.

Definition ascii_isspace (c : ascii) : bool :=
  let n := nat_of_ascii c in
  orb (andb (Nat.leb 9 n) (Nat.leb n 13))
      (orb (andb (Nat.leb 28 n) (Nat.leb n 31)) (Nat.eqb n 32)).

Fixpoint lstrip (s : string) : string :=
  match s with
  | EmptyString => EmptyString
  | String c rest => if ascii_isspace c then lstrip rest else s
  end.

Fixpoint rstrip (s : string) : string :=
  match s with
  | EmptyString => EmptyString
  | String c rest =>
      match rstrip rest with
      | EmptyString => if ascii_isspace c then EmptyString else String c EmptyString
      | kept => String c kept
      end
  end.

Definition ascii_strip (s : string) : string := rstrip (lstrip s).

(** *** Reading the keyword table

    Names for the keyword sets the generator tests, and for "the text
    mentions a keyword of the set". *)

(** The keyword sets of the seven categories, in priority order. *)
Definition check_in_keywords : list string := ["check-in"; "check in"; "arrival"].
Definition check_out_keywords : list string := ["check-out"; "check out"; "departure"].
Definition wifi_keywords : list string := ["wifi"; "wi-fi"; "internet"].
Definition parking_keywords : list string := ["parking"; "car"].
Definition pets_keywords : list string := ["pet"; "dog"; "cat"].
Definition amenities_keywords : list string := ["pool"; "gym"; "fitness"; "spa"].
Definition rates_keywords : list string := ["rate"; "price"; "cost"].

Definition all_keywords : list string :=
  (check_in_keywords ++ check_out_keywords ++ wifi_keywords ++ parking_keywords
   ++ pets_keywords ++ amenities_keywords ++ rates_keywords)%list.

(** Some keyword of the set appears in the text. *)
Definition mentions (keywords : list string) (text : string) : Prop :=
  exists k, In k keywords /\ occurs_in k text.

(** No keyword of the set appears in the text. *)
Definition mentions_none (keywords : list string) (text : string) : Prop :=
  forall k, In k keywords -> ~ occurs_in k text.

(** ** Data record definitions ([schemas.py])

    A pydantic model is a record; constructing an instance from keyword
    arguments validates the fields one by one, in declaration order, and
    either yields the record or fails with the list of every field error
    found ([ValidationError], the specification's InvalidInput).  Keyword
    arguments are typed here: a supplied value already has the Python type
    of its field, so the only failures left are a missing required field, a
    numeric bound and a malformed e-mail address. *)

Inductive ErrorType : Type :=
| missing                 (* required field not supplied *)
| greater_than_equal      (* [ge=0] bound violated *)
| value_error.            (* EmailStr: not a valid e-mail address *)

Definition ValidationError : Type := list (string * ErrorType).

(** Outcome of validating one field or a whole model. *)
Definition validated (A : Type) : Type := (ValidationError + A)%type.

Definition valid {A} (a : A) : validated A := inr a.

(** Field validations are independent; their errors accumulate in order. *)
Definition vapply {A B} (f : validated (A -> B)) (x : validated A) : validated B :=
  match f, x with
  | inr g, inr a => inr (g a)
  | inr _, inl ex => inl ex
  | inl ef, inr _ => inl ef
  | inl ef, inl ex => inl (ef ++ ex)%list
  end.

Notation "f <*> x" := (vapply f x) (at level 52, left associativity).

(** [name: T] or [name: T = Field(...)]: the field must be supplied. *)
Definition required {A} (field : string) (v : option A) : validated A :=
  match v with
  | Some a => inr a
  | None => inl [(field, missing)]
  end.

(** [name: T = default]: the default stands in for an absent argument. *)
Definition defaulted {A} (default : A) (v : option A) : validated A :=
  inr (match v with
       | Some a => a
       | None => default
       end).

(** [int = Field(default, ge=0)]. *)
Definition defaulted_int_ge0 (field : string) (default : Z) (v : option Z) : validated Z :=
  match v with
  | None => inr default
  | Some z => if (0 <=? z)%Z then inr z else inl [(field, greater_than_equal)]
  end.

(** [Optional[float] = Field(default, ge=0)]: [None] is accepted as it is,
    a number must satisfy [0 <= x] (false for a NaN). *)
Definition defaulted_float_ge0 (field : string) (default : option float)
    (v : option (option float)) : validated (option float) :=
  match v with
  | None => inr default
  | Some None => inr None
  | Some (Some x) =>
      if PrimFloat.leb 0%float x then inr (Some x) else inl [(field, greater_than_equal)]
  end.

(** [datetime.date]. *)
Record date : Type := { year : Z; month : Z; day : Z }.

(** [d1 < d2] on dates: lexicographic on year, month, day. *)
Definition date_ltb (d1 d2 : date) : bool :=
  ((year d1 <? year d2)
   || ((year d1 =? year d2) && ((month d1 <? month d2)
       || ((month d1 =? month d2) && (day d1 <? day d2)))))%Z%bool.

Section EmailFields.

(** The e-mail syntax check behind [EmailStr] is the [email-validator]
    library; it rejects the address or returns its normalised form, which
    is what the model stores. *)
Variable validate_email : string -> option string.

(** [email: EmailStr]. *)
Definition required_email (field : string) (v : option string) : validated string :=
  match v with
  | None => inl [(field, missing)]
  | Some e =>
      match validate_email e with
      | Some normalised => inr normalised
      | None => inl [(field, value_error)]
      end
  end.

(** [email: Optional[EmailStr] = None]. *)
Definition optional_email (field : string) (v : option (option string))
  : validated (option string) :=
  match v with
  | None => inr None
  | Some None => inr None
  | Some (Some e) =>
      match validate_email e with
      | Some normalised => inr (Some normalised)
      | None => inl [(field, value_error)]
      end
  end.

End EmailFields.

(** A stand-in for the e-mail validator: accepts what contains an "@". *)
Definition has_at_sign (e : string) : option string :=
  if str_in "@" e then Some e else None.

Module Property.

Record t : Type := {
  name : string;
  description : option string;
  address : option string;
  city : option string;
  country : option string;
  phone : option string;
  email : option string;
  website : option string;
  check_in_time : option string;
  check_out_time : option string;
  amenities : list string;
  currency : string;
  timezone : option string;
  rooms_total : Z;
  rooms_available : Z;
  min_rate : option float;
  max_rate : option float
}.

(** Keyword arguments of [Property(...)]: [None] is an argument that was
    not passed. *)
Record kwargs : Type := {
  kw_name : option string;
  kw_description : option (option string);
  kw_address : option (option string);
  kw_city : option (option string);
  kw_country : option (option string);
  kw_phone : option (option string);
  kw_email : option (option string);
  kw_website : option (option string);
  kw_check_in_time : option (option string);
  kw_check_out_time : option (option string);
  kw_amenities : option (list string);
  kw_currency : option string;
  kw_timezone : option (option string);
  kw_rooms_total : option Z;
  kw_rooms_available : option Z;
  kw_min_rate : option (option float);
  kw_max_rate : option (option float)
}.

Definition new (validate_email : string -> option string) (kw : kwargs) : validated t :=
  valid Build_t
    <*> required "name" (kw_name kw)
    <*> defaulted None (kw_description kw)
    <*> defaulted None (kw_address kw)
    <*> defaulted None (kw_city kw)
    <*> defaulted None (kw_country kw)
    <*> defaulted None (kw_phone kw)
    <*> optional_email validate_email "email" (kw_email kw)
    <*> defaulted None (kw_website kw)
    <*> defaulted (Some "3:00 PM") (kw_check_in_time kw)
    <*> defaulted (Some "11:00 AM") (kw_check_out_time kw)
    <*> defaulted ["Free Wi‑Fi"; "Parking"; "Breakfast available"] (kw_amenities kw)
    <*> defaulted "USD" (kw_currency kw)
    <*> defaulted None (kw_timezone kw)
    <*> defaulted_int_ge0 "rooms_total" 20 (kw_rooms_total kw)
    <*> defaulted_int_ge0 "rooms_available" 20 (kw_rooms_available kw)
    <*> defaulted_float_ge0 "min_rate" (Some 79.0%float) (kw_min_rate kw)
    <*> defaulted_float_ge0 "max_rate" (Some 249.0%float) (kw_max_rate kw).

(** [Property()] with nothing supplied, and [Property(name=n)]. *)
Definition no_kwargs : kwargs :=
  Build_kwargs None None None None None None None None None
               None None None None None None None None.

Definition only_name (n : string) : kwargs :=
  Build_kwargs (Some n) None None None None None None None None
               None None None None None None None None.

End Property.

Module Faq.

Record t : Type := {
  question : string;
  answer : string;
  tags : list string
}.

Record kwargs : Type := {
  kw_question : option string;
  kw_answer : option string;
  kw_tags : option (list string)
}.

Definition new (kw : kwargs) : validated t :=
  valid Build_t
    <*> required "question" (kw_question kw)
    <*> required "answer" (kw_answer kw)
    <*> defaulted [] (kw_tags kw).

End Faq.

Module ConversationMessage.

(** [Literal['user', 'assistant']]. *)
Inductive role_t : Type := user | assistant.

Record t : Type := {
  role : role_t;
  content : string;
  lang : option string
}.

(** [ConversationMessage(role=..., content=..., lang=...)] as the handlers
    call it: the two required fields are always passed, with values of the
    declared types, so the construction cannot fail. *)
Definition new (role : role_t) (content : string) (lang : option (option string)) : t :=
  Build_t role content (match lang with Some l => l | None => None end).

End ConversationMessage.

Module Conversation.

(** [Literal['open','closed']] and
    [Literal['web','kiosk','sms','whatsapp','phone']]. *)
Inductive status_t : Type := open | closed.
Inductive source_t : Type := web | kiosk | sms | whatsapp | phone.

Record t : Type := {
  visitor_id : string;
  messages : list ConversationMessage.t;
  status : status_t;
  source : source_t
}.

(** [Conversation(visitor_id=..., messages=..., status=..., source=...)]:
    [visitor_id] is always passed by the handlers; an argument left out
    takes the declared default ([[]], ['open'], ['web']). *)
Definition new (visitor_id : string) (messages : option (list ConversationMessage.t))
    (status : option status_t) (source : option source_t) : t :=
  Build_t visitor_id
          (match messages with Some m => m | None => [] end)
          (match status with Some s => s | None => open end)
          (match source with Some s => s | None => web end).

End Conversation.

Module Lead.

(** [Literal['new','contacted','qualified','booked','closed']]; the value
    ['new'] is [new_], [new] being the constructor function below. *)
Inductive status_t : Type := new_ | contacted | qualified | booked | closed.

Record t : Type := {
  name : option string;
  email : option string;
  phone : option string;
  message : option string;
  conversation_id : option string;
  status : status_t
}.

Record kwargs : Type := {
  kw_name : option (option string);
  kw_email : option (option string);
  kw_phone : option (option string);
  kw_message : option (option string);
  kw_conversation_id : option (option string);
  kw_status : option status_t
}.

Definition new (validate_email : string -> option string) (kw : kwargs) : validated t :=
  valid Build_t
    <*> defaulted None (kw_name kw)
    <*> optional_email validate_email "email" (kw_email kw)
    <*> defaulted None (kw_phone kw)
    <*> defaulted None (kw_message kw)
    <*> defaulted None (kw_conversation_id kw)
    <*> defaulted new_ (kw_status kw).

End Lead.

Module BookingRequest.

Record t : Type := {
  full_name : string;
  email : string;
  phone : option string;
  check_in : date;
  check_out : date;
  adults : Z;
  children : Z;
  special_requests : option string;
  estimated_rate : option float;
  currency : string;
  conversation_id : option string
}.

Record kwargs : Type := {
  kw_full_name : option string;
  kw_email : option string;
  kw_phone : option (option string);
  kw_check_in : option date;
  kw_check_out : option date;
  kw_adults : option Z;
  kw_children : option Z;
  kw_special_requests : option (option string);
  kw_estimated_rate : option (option float);
  kw_currency : option string;
  kw_conversation_id : option (option string)
}.

Definition new (validate_email : string -> option string) (kw : kwargs) : validated t :=
  valid Build_t
    <*> required "full_name" (kw_full_name kw)
    <*> required_email validate_email "email" (kw_email kw)
    <*> defaulted None (kw_phone kw)
    <*> required "check_in" (kw_check_in kw)
    <*> required "check_out" (kw_check_out kw)
    <*> defaulted 2%Z (kw_adults kw)
    <*> defaulted 0%Z (kw_children kw)
    <*> defaulted None (kw_special_requests kw)
    <*> defaulted None (kw_estimated_rate kw)
    <*> defaulted "USD" (kw_currency kw)
    <*> defaulted None (kw_conversation_id kw).

(** [BookingRequest(full_name=.., email=.., check_in=.., check_out=..)]:
    the four required fields and nothing else. *)
Definition required_only (full_name email : string) (check_in check_out : date) : kwargs :=
  Build_kwargs (Some full_name) (Some email) None (Some check_in) (Some check_out)
               None None None None None None.

End BookingRequest.

(** ** HTTP API layer ([main.py])

    *** Values, exceptions and the effects of a handler *)

(** JSON-like Python values: what a handler returns and what the store
    yields.  A [dict] is an association list in insertion order. *)
#[local] Set Warnings "-register-all".
Inductive pyval : Type :=
| VNone
| VStr (s : string)
| VList (items : list pyval)
| VDict (entries : list (string * pyval)).

(** A stored document as [get_documents] returns it. *)
Definition Document : Type := list (string * pyval).

(** [response[key] = value] on a dict that already has [key]. *)
Fixpoint dict_set (key : string) (value : pyval) (d : list (string * pyval))
  : list (string * pyval) :=
  match d with
  | [] => [(key, value)]
  | (k, v) :: rest =>
      if String.eqb k key then (k, value) :: rest else (k, v) :: dict_set key value rest
  end.

(** A validated model instance handed to [create_document]. *)
Inductive Model : Type :=
| MProperty (p : Property.t)
| MFaq (f : Faq.t)
| MConversation (c : Conversation.t)
| MLead (l : Lead.t)
| MBookingRequest (b : BookingRequest.t).

(** Exceptions: FastAPI's [HTTPException], and any other [Exception]
    instance, known by the text [str(e)] gives for it. *)
Inductive Exception : Type :=
| HTTPException (status_code : Z) (detail : string)
| Error (description : string).

(** [str(e)].  For an [HTTPException] this is Starlette's
    ["{status_code}: {detail}"]. *)
Definition str_exc (e : Exception) : string :=
  match e with
  | HTTPException status_code detail =>
      NilZero.string_of_int (Z.to_int status_code) ++ ": " ++ detail
  | Error description => description
  end.

(** [s[:n]]: the first [n] characters (code points) of a UTF-8 string. *)
Definition utf8_continuation (c : ascii) : bool :=
  let b := nat_of_ascii c in andb (Nat.leb 128 b) (Nat.ltb b 192).

Fixpoint str_slice_to (n : nat) (s : string) : string :=
  match s with
  | EmptyString => EmptyString
  | String c rest =>
      if utf8_continuation c then String c (str_slice_to n rest)
      else match n with
           | O => EmptyString
           | S n' => String c (str_slice_to n' rest)
           end
  end.

(** A handler is a finite program over the operations [main.py] imports
    from [database] ([create_document], [get_documents], the handle [db])
    and from [os] ([getenv]).  Each operation node receives what the
    environment answers: a value, or the exception the call raised. *)
Inductive Eff (A : Type) : Type :=
| Ret (a : A)
| Raise (e : Exception)
| CreateDocument (collection_name : string) (data : Model)
                 (k : Exception + string -> Eff A)
| GetDocuments (collection_name : string) (filter_dict : Document) (limit : Z)
               (k : Exception + list Document -> Eff A)
| ListCollectionNames (k : Exception + list string -> Eff A)
| DbIsNotNone (k : bool -> Eff A)
| GetEnv (name : string) (k : option string -> Eff A).

Arguments Ret {A} a.
Arguments Raise {A} e.
Arguments CreateDocument {A} collection_name data k.
Arguments GetDocuments {A} collection_name filter_dict limit k.
Arguments ListCollectionNames {A} k.
Arguments DbIsNotNone {A} k.
Arguments GetEnv {A} name k.

(** Sequencing: an exception raised by the first part skips the rest. *)
Fixpoint bind {A B} (m : Eff A) (f : A -> Eff B) : Eff B :=
  match m with
  | Ret a => f a
  | Raise e => Raise e
  | CreateDocument c d k => CreateDocument c d (fun r => bind (k r) f)
  | GetDocuments c q l k => GetDocuments c q l (fun r => bind (k r) f)
  | ListCollectionNames k => ListCollectionNames (fun r => bind (k r) f)
  | DbIsNotNone k => DbIsNotNone (fun r => bind (k r) f)
  | GetEnv v k => GetEnv v (fun r => bind (k r) f)
  end.

(** [try: body / except Exception as e: handler(e)]. *)
Fixpoint try_except {A} (body : Eff A) (handler : Exception -> Eff A) : Eff A :=
  match body with
  | Ret a => Ret a
  | Raise e => handler e
  | CreateDocument c d k => CreateDocument c d (fun r => try_except (k r) handler)
  | GetDocuments c q l k => GetDocuments c q l (fun r => try_except (k r) handler)
  | ListCollectionNames k => ListCollectionNames (fun r => try_except (k r) handler)
  | DbIsNotNone k => DbIsNotNone (fun r => try_except (k r) handler)
  | GetEnv v k => GetEnv v (fun r => try_except (k r) handler)
  end.

Declare Scope eff_scope.
Delimit Scope eff_scope with eff.
Notation "x <- m ;; k" := (bind m (fun x => k))
  (at level 61, m at next level, right associativity) : eff_scope.
Notation "m ;;; k" := (bind m (fun _ => k))
  (at level 61, right associativity) : eff_scope.
Open Scope eff_scope.

(** A call either returns its value or raises. *)
Definition returned {A} (r : Exception + A) : Eff A :=
  match r with
  | inl e => Raise e
  | inr a => Ret a
  end.

Definition create_document (collection_name : string) (data : Model) : Eff string :=
  CreateDocument collection_name data returned.

Definition get_documents (collection_name : string) (filter_dict : Document) (limit : Z)
  : Eff (list Document) :=
  GetDocuments collection_name filter_dict limit returned.

Definition list_collection_names : Eff (list string) :=
  ListCollectionNames returned.

Definition db_is_not_none : Eff bool := DbIsNotNone Ret.

Definition getenv (name : string) : Eff (option string) := GetEnv name Ret.

(** [raise HTTPException(status_code=500, detail=str(e))]. *)
Definition raise_500 {A} (e : Exception) : Eff A :=
  Raise (HTTPException 500 (str_exc e)).

(** *** Route handlers *)

(** Request body of the two conversation routes. *)
Record ConversationIn : Type := {
  visitor_id : string;
  message : string;
  lang : option string
}.

Definition root : Eff pyval :=
  Ret (VDict [("service", VStr "AI Receptionist API"); ("status", VStr "ok")]).

(** [GET /test].  Inside its outer [try] nothing can raise before or after
    the inner [try], which catches every exception itself; the outer
    handler is kept as the source has it. *)
Definition test_database : Eff pyval :=
  let response :=
    [("backend", VStr "✅ Running");
     ("database", VStr "❌ Not Available");
     ("database_url", VNone);
     ("database_name", VNone);
     ("connection_status", VStr "Not Connected");
     ("collections", VList [])] in
  try_except
    (live <- db_is_not_none ;;
     if (live : bool) then
       let response := dict_set "database" (VStr "✅ Available") response in
       url <- getenv "DATABASE_URL" ;;
       let response :=
         dict_set "database_url"
           (VStr (match url with
                  | Some (String _ _) => "✅ Set"
                  | _ => "❌ Not Set"
                  end)) response in
       name <- getenv "DATABASE_NAME" ;;
       let response :=
         dict_set "database_name"
           (VStr (match name with
                  | Some (String c rest) => String c rest
                  | _ => "❌ Not Set"
                  end)) response in
       try_except
         (collections <- list_collection_names ;;
          let response :=
            dict_set "collections" (VList (map VStr (firstn 10 collections))) response in
          let response := dict_set "database" (VStr "✅ Connected & Working") response in
          let response := dict_set "connection_status" (VStr "Connected") response in
          Ret (VDict response))
         (fun e =>
            Ret (VDict (dict_set "database"
                          (VStr ("⚠️ Connected but Error: " ++ str_slice_to 120 (str_exc e)))
                          response)))
     else
       Ret (VDict (dict_set "database" (VStr "⚠️ Available but not initialized") response)))
    (fun e =>
       Ret (VDict (dict_set "database"
                     (VStr ("❌ Error: " ++ str_slice_to 120 (str_exc e)))
                     response))).

Definition upsert_property (payload : Property.t) : Eff pyval :=
  try_except
    (inserted_id <- create_document "property" (MProperty payload) ;;
     Ret (VDict [("id", VStr inserted_id)]))
    raise_500.

Definition get_property_sample : Eff pyval :=
  try_except
    (props <- get_documents "property" [] 1 ;;
     Ret (VList (map VDict props)))
    raise_500.

Definition add_faq (faq : Faq.t) : Eff pyval :=
  try_except
    (_id <- create_document "faq" (MFaq faq) ;;
     Ret (VDict [("id", VStr _id)]))
    raise_500.

Definition list_faqs : Eff pyval :=
  try_except
    (docs <- get_documents "faq" [] 50 ;;
     Ret (VList (map VDict docs)))
    raise_500.

Section Conversations.

Variable lower : string -> string.
Variable strip : string -> string.

Definition start_conversation (payload : ConversationIn) : Eff pyval :=
  try_except
    (let conv :=
       Conversation.new (visitor_id payload)
         (Some [ConversationMessage.new ConversationMessage.user
                  (message payload) (Some (lang payload))])
         None None in
     conv_id <- create_document "conversation" (MConversation conv) ;;
     let ai_reply := generate_ai_reply lower strip (message payload) in
     create_document "conversation"
       (MConversation
          (Conversation.new (visitor_id payload)
             (Some [ConversationMessage.new ConversationMessage.assistant
                      ai_reply (Some (lang payload))])
             (Some Conversation.open) None)) ;;;
     Ret (VDict [("conversation_id", VStr conv_id); ("reply", VStr ai_reply)]))
    raise_500.

Definition add_message (conversation_id : string) (payload : ConversationIn) : Eff pyval :=
  try_except
    (create_document "conversation"
       (MConversation
          (Conversation.new (visitor_id payload)
             (Some [ConversationMessage.new ConversationMessage.user
                      (message payload) (Some (lang payload))])
             (Some Conversation.open) None)) ;;;
     let ai_reply := generate_ai_reply lower strip (message payload) in
     create_document "conversation"
       (MConversation
          (Conversation.new (visitor_id payload)
             (Some [ConversationMessage.new ConversationMessage.assistant
                      ai_reply (Some (lang payload))])
             (Some Conversation.open) None)) ;;;
     Ret (VDict [("reply", VStr ai_reply)]))
    raise_500.

End Conversations.

Definition create_lead (lead : Lead.t) : Eff pyval :=
  try_except
    (_id <- create_document "lead" (MLead lead) ;;
     Ret (VDict [("id", VStr _id)]))
    raise_500.

Definition list_leads : Eff pyval :=
  try_except
    (docs <- get_documents "lead" [] 50 ;;
     Ret (VList (map VDict docs)))
    raise_500.

Definition request_booking (br : BookingRequest.t) : Eff pyval :=
  try_except
    (_id <- create_document "bookingrequest" (MBookingRequest br) ;;
     Ret (VDict [("id", VStr _id)]))
    raise_500.

Definition list_bookings : Eff pyval :=
  try_except
    (docs <- get_documents "bookingrequest" [] 50 ;;
     Ret (VList (map VDict docs)))
    raise_500.

(** *** The application: one request, one handler *)

Inductive Request : Type :=
| GET_root
| GET_test
| POST_property (payload : Property.t)
| GET_property
| POST_faqs (faq : Faq.t)
| GET_faqs
| POST_conversations_start (payload : ConversationIn)
| POST_conversations_message (conversation_id : string) (payload : ConversationIn)
| POST_leads (lead : Lead.t)
| GET_leads
| POST_bookings (br : BookingRequest.t)
| GET_bookings.

Definition app (lower strip : string -> string) (req : Request) : Eff pyval :=
  match req with
  | GET_root => root
  | GET_test => test_database
  | POST_property payload => upsert_property payload
  | GET_property => get_property_sample
  | POST_faqs faq => add_faq faq
  | GET_faqs => list_faqs
  | POST_conversations_start payload => start_conversation lower strip payload
  | POST_conversations_message conversation_id payload =>
      add_message lower strip conversation_id payload
  | POST_leads lead => create_lead lead
  | GET_leads => list_leads
  | POST_bookings br => request_booking br
  | GET_bookings => list_bookings
  end.

(** The routes that read or write record data (every route under [/api]). *)
Definition data_route (req : Request) : bool :=
  match req with
  | GET_root | GET_test => false
  | _ => true
  end.

(** *** Running a handler against a store

    The [database] module is outside the handlers: the environment below
    fixes, for each store operation, what it answers.  The outcome of an
    operation may depend on its arguments and on how many store operations
    came before it, so every behaviour of a store over a run is some [Env]. *)
Record Env : Type := {
  db_live : bool;
  environ : string -> option string;
  create_outcome : nat -> string -> Model -> Exception + string;
  get_outcome : nat -> string -> Document -> Z -> Exception + list Document;
  list_outcome : nat -> Exception + list string
}.

(** One store operation as it happened: the call and its outcome. *)
Inductive Event : Type :=
| EvCreate (collection_name : string) (data : Model) (outcome : Exception + string)
| EvGet (collection_name : string) (filter_dict : Document) (limit : Z)
        (outcome : Exception + list Document)
| EvList (outcome : Exception + list string).

(** [run env n m]: the store operations [m] performs, in order, when [n]
    operations have already taken place, and how [m] ends: with a returned
    value or with an exception leaving it. *)
Fixpoint run {A} (env : Env) (n : nat) (m : Eff A) : list Event * (Exception + A) :=
  match m with
  | Ret a => ([], inr a)
  | Raise e => ([], inl e)
  | CreateDocument c d k =>
      let r := create_outcome env n c d in
      let (log, out) := run env (S n) (k r) in
      (EvCreate c d r :: log, out)
  | GetDocuments c q l k =>
      let r := get_outcome env n c q l in
      let (log, out) := run env (S n) (k r) in
      (EvGet c q l r :: log, out)
  | ListCollectionNames k =>
      let r := list_outcome env n in
      let (log, out) := run env (S n) (k r) in
      (EvList r :: log, out)
  | DbIsNotNone k => run env n (k (db_live env))
  | GetEnv v k => run env n (k (environ env v))
  end.

(** The exception a store operation raised, if it raised one. *)
Definition failure (ev : Event) : option Exception :=
  match ev with
  | EvCreate _ _ (inl e) | EvGet _ _ _ (inl e) | EvList (inl e) => Some e
  | _ => None
  end.

Definition succeeded (ev : Event) : Prop := failure ev = None.

(** The documents a run persisted: the inserts that went through, as
    (collection, record, identifier the store generated). *)
Fixpoint persisted (log : list Event) : list (string * Model * string) :=
  match log with
  | [] => []
  | EvCreate c d (inr doc_id) :: rest => (c, d, doc_id) :: persisted rest
  | _ :: rest => persisted rest
  end.

(** Serving requests one after the other. *)
Fixpoint serve (lower strip : string -> string) (env : Env) (n : nat)
    (reqs : list Request) : list Event * list (Exception + pyval) :=
  match reqs with
  | [] => ([], [])
  | req :: rest =>
      let (log, out) := run env n (app lower strip req) in
      let (logs, outs) := serve lower strip env (n + length log) rest in
      ((log ++ logs)%list, out :: outs)
  end.

(** The shape every stored conversation is claimed to have. *)
Definition single_open_message (m : Model) : Prop :=
  match m with
  | MConversation c =>
      length (Conversation.messages c) = 1 /\ Conversation.status c = Conversation.open
  | _ => True
  end.

(** The two documents of one conversation turn, written out field by
    field: the visitor's message and the generated reply. *)
Definition user_document (payload : ConversationIn) : Model :=
  MConversation
    {| Conversation.visitor_id := visitor_id payload;
       Conversation.messages :=
         [ {| ConversationMessage.role := ConversationMessage.user;
              ConversationMessage.content := message payload;
              ConversationMessage.lang := lang payload |} ];
       Conversation.status := Conversation.open;
       Conversation.source := Conversation.web |}.

Definition assistant_document (reply : string) (payload : ConversationIn) : Model :=
  MConversation
    {| Conversation.visitor_id := visitor_id payload;
       Conversation.messages :=
         [ {| ConversationMessage.role := ConversationMessage.assistant;
              ConversationMessage.content := reply;
              ConversationMessage.lang := lang payload |} ];
       Conversation.status := Conversation.open;
       Conversation.source := Conversation.web |}.

(** Two sample environments: a store where every operation goes through,
    the n-th one generating the identifier "id-n", and a store whose handle
    is absent, every operation raising. *)
Definition healthy_store : Env :=
  {| db_live := true;
     environ := fun _ => None;
     create_outcome := fun n _ _ => inr ("id-" ++ NilZero.string_of_uint (Nat.to_uint n));
     get_outcome := fun _ _ _ _ => inr [];
     list_outcome := fun _ => inr [] |}.

Definition absent_store : Env :=
  {| db_live := false;
     environ := fun _ => None;
     create_outcome := fun _ _ _ => inl (Error "Database not available");
     get_outcome := fun _ _ _ _ => inl (Error "Database not available");
     list_outcome := fun _ => inl (Error "Database not available") |}.

Definition sample_payload : ConversationIn :=
  {| visitor_id := "v1"; message := "Do you allow pets?"; lang := Some "en" |}.

(** ** Further vocabulary for the properties

    *** The reply generator as a table *)

(** The seven tests of [generate_ai_reply], top to bottom: the keyword set
    of each category and the response returned when it matches. *)
Definition reply_table : list (list string * string) :=
  [ (check_in_keywords,
     "Check-in is at 3:00 PM. Early check-in is subject to availability.");
    (check_out_keywords,
     "Check-out is at 11:00 AM. Late check-out may be available upon request.");
    (wifi_keywords,
     "Yes, complimentary high-speed Wi‑Fi is available throughout the property.");
    (parking_keywords,
     "Parking is available on-site. Please check with the front desk for rates and availability.");
    (pets_keywords,
     "We are pet-friendly for select rooms. A cleaning fee may apply.");
    (amenities_keywords,
     "Our amenities include fitness center access from 6 AM to 10 PM.");
    (rates_keywords,
     "Standard rates start from $89 per night before taxes and fees.") ].

Definition fallback_response : string :=
  "Thanks for reaching out! How can I assist with your stay, booking, or questions today?".

(** The response of the first row one of whose keywords the search finds. *)
Fixpoint first_match (table : list (list string * string)) (text : string) : string :=
  match table with
  | [] => fallback_response
  | (keywords, response) :: rest =>
      if any_in keywords text then response else first_match rest text
  end.



(** *** Reading validation outcomes *)


(** The construction failed and its error list names this field with this
    kind of error. *)
Definition reports {A} (v : validated A) (field : string) (kind : ErrorType) : Prop :=
  exists errors, v = inl errors /\ In (field, kind) errors.





(** A stored rate: absent, or a number that is at least zero. *)
Definition rate_ok (r : option float) : Prop :=
  match r with
  | Some x => PrimFloat.leb 0%float x = true
  | None => True
  end.

(** [Property(name=n, rooms_total=.., rooms_available=.., min_rate=..,
    max_rate=..)]. *)
Definition property_with_rooms_and_rates (n : string) (total available : Z)
    (lowest highest : float) : Property.kwargs :=
  Property.Build_kwargs (Some n) None None None None None None None None None
    None None None (Some total) (Some available) (Some (Some lowest)) (Some (Some highest)).



(** *** Reading runs of the handlers *)

(** The collection of a record kind: the lower-case name of its class, as
    the docstring of [schemas.py] puts it. *)
Definition collection_of (m : Model) : string :=
  match m with
  | MProperty _ => "property"
  | MFaq _ => "faq"
  | MConversation _ => "conversation"
  | MLead _ => "lead"
  | MBookingRequest _ => "bookingrequest"
  end.

(** An insert goes to the collection of the record it inserts. *)
Definition routed (ev : Event) : Prop :=
  match ev with
  | EvCreate collection_name data _ => collection_name = collection_of data
  | _ => True
  end.

(** A query has no filter and a fixed cap: 1 on [property], 50 on [faq],
    [lead] and [bookingrequest]. *)
Definition capped (ev : Event) : Prop :=
  match ev with
  | EvGet collection_name filter_dict limit _ =>
      filter_dict = []
      /\ ((collection_name = "property" /\ limit = 1%Z)
          \/ (In collection_name ["faq"; "lead"; "bookingrequest"] /\ limit = 50%Z))
  | _ => True
  end.



(** [d[key]] on a dict, and [len(s)] of a UTF-8 string in characters. *)
Fixpoint dict_get (key : string) (d : list (string * pyval)) : option pyval :=
  match d with
  | [] => None
  | (k, v) :: rest => if String.eqb k key then Some v else dict_get key rest
  end.

Fixpoint str_len (s : string) : nat :=
  match s with
  | EmptyString => 0
  | String c rest => (if utf8_continuation c then 0 else 1) + str_len rest
  end.

(** Two more sample environments: a store that takes the first insert and
    loses the connection afterwards, and a live handle on which listing the
    collections fails; the connection string is set in both. *)
Definition connection_lost_after_first : Env :=
  {| db_live := true;
     environ := fun v => if String.eqb v "DATABASE_URL"
                         then Some "mongodb://user:secret@db:27017" else None;
     create_outcome := fun n _ _ =>
       match n with
       | O => inr "id-0"
       | S _ => inl (Error "connection lost")
       end;
     get_outcome := fun _ _ _ _ => inl (Error "connection lost");
     list_outcome := fun _ => inl (Error "connection lost") |}.

(** * Properties *)

(** ** Substring search *)

Lemma prefix_iff_append (k text : string) :
  String.prefix k text = true <-> exists post, text = k ++ post.
Proof.
  revert text; induction k as [|a k IH]; intros [|b text]; simpl.
  - split; [intros _; now exists "" | reflexivity].
  - split; [intros _; now exists (String b text) | reflexivity].
  - split; [discriminate | intros [post H]; discriminate H].
  - destruct (ascii_dec a b) as [->|Hab].
    + rewrite IH. split; intros [post H]; exists post.
      * now rewrite H.
      * now injection H.
    + split; [discriminate|].
      intros [post H]. injection H as Hb _. congruence.
Qed.

Lemma str_in_unfold (k text : string) :
  str_in k text
  = (String.prefix k text
     || match text with
        | EmptyString => false
        | String _ rest => str_in k rest
        end)%bool.
Proof. destruct text; cbn [str_in]; now destruct (String.prefix k _). Qed.

Lemma str_in_iff_occurs (k text : string) :
  str_in k text = true <-> occurs_in k text.
Proof.
  split.
  - induction text as [|c text IH]; rewrite str_in_unfold; intros H;
      apply orb_true_iff in H as [Hp|H];
      try (apply prefix_iff_append in Hp as [post Hp]; exists "", post; exact Hp).
    + discriminate.
    + destruct (IH H) as (pre & post & ->).
      exists (String c pre), post. reflexivity.
  - intros (pre & post & ->).
    induction pre as [|c pre IH]; rewrite str_in_unfold; apply orb_true_iff.
    + left. apply prefix_iff_append. now exists post.
    + right. exact IH.
Qed.

Lemma any_in_true (keywords : list string) (k text : string) :
  In k keywords -> occurs_in k text -> any_in keywords text = true.
Proof.
  intros Hin Hocc. apply existsb_exists. exists k. split; [exact Hin|].
  now apply str_in_iff_occurs.
Qed.

Lemma any_in_false (keywords : list string) (text : string) :
  (forall k, In k keywords -> ~ occurs_in k text) -> any_in keywords text = false.
Proof.
  intros Hnone. destruct (any_in keywords text) eqn:Hany; [|reflexivity].
  apply existsb_exists in Hany as (k & Hin & Hk).
  apply str_in_iff_occurs in Hk. now destruct (Hnone k Hin).
Qed.

(** ** Heuristic reply generator *)

Lemma mentions_any_in (keywords : list string) (text : string) :
  mentions keywords text -> any_in keywords text = true.
Proof. intros (k & Hin & Hocc). exact (any_in_true _ _ _ Hin Hocc). Qed.

Lemma mentions_none_app (ks1 ks2 : list string) (text : string) :
  mentions_none (ks1 ++ ks2)%list text ->
  mentions_none ks1 text /\ mentions_none ks2 text.
Proof.
  intros H; split; intros k Hin; apply H, in_or_app; [left|right]; exact Hin.
Qed.

Lemma mentions_none_by_search (keywords : list string) (text : string) :
  any_in keywords text = false -> mentions_none keywords text.
Proof.
  intros Hany k Hin Hocc.
  rewrite (any_in_true _ _ _ Hin Hocc) in Hany. discriminate.
Qed.

Section ReplyProperties.

Variable lower : string -> string.
Variable strip : string -> string.

(** C2 (as the code has it): a message whose normalised text mentions a
    Wi-Fi keyword and no check-in or check-out keyword gets the Wi-Fi
    reply, whose "Wi‑Fi" is written with U+2011 NON-BREAKING HYPHEN. *)
Theorem wifi_reply (message : string) :
  mentions wifi_keywords (strip (lower message)) ->
  mentions_none (check_in_keywords ++ check_out_keywords)%list (strip (lower message)) ->
  generate_ai_reply lower strip message
  = "Yes, complimentary high-speed Wi‑Fi is available throughout the property.".
Proof.
  intros Hwifi Hnone.
  apply mentions_none_app in Hnone as [Hin Hout].
  unfold generate_ai_reply.
  fold check_in_keywords check_out_keywords wifi_keywords.
  rewrite (any_in_false _ _ Hin), (any_in_false _ _ Hout).
  now rewrite (mentions_any_in _ _ Hwifi).
Qed.

(** As soon as the normalised text mentions a check-in keyword the reply
    is the check-in one, whatever else the text mentions. *)
Lemma check_in_first (message : string) :
  mentions check_in_keywords (strip (lower message)) ->
  generate_ai_reply lower strip message
  = "Check-in is at 3:00 PM. Early check-in is subject to availability.".
Proof.
  intros Hin. unfold generate_ai_reply. fold check_in_keywords.
  now rewrite (mentions_any_in _ _ Hin).
Qed.

(** No keyword of any category: every test fails and the fallback is
    returned. *)
Lemma fallback_when_nothing_matches (message : string) :
  mentions_none all_keywords (strip (lower message)) ->
  generate_ai_reply lower strip message
  = "Thanks for reaching out! How can I assist with your stay, booking, or questions today?".
Proof.
  intros H. unfold all_keywords in H.
  repeat (apply mentions_none_app in H as [?H H]).
  unfold generate_ai_reply.
  fold check_in_keywords check_out_keywords wifi_keywords parking_keywords
       pets_keywords amenities_keywords rates_keywords.
  now repeat (rewrite any_in_false by assumption).
Qed.

End ReplyProperties.

(** The hyphen of "Wi‑Fi" in the Wi-Fi reply is the three bytes E2 80 91,
    the UTF-8 encoding of U+2011 NON-BREAKING HYPHEN. *)
Lemma wifi_reply_hyphen_bytes :
  String.substring 30 5 (generate_ai_reply ascii_lower ascii_strip "wifi")
  = String "W" (String "i" (String "226" (String "128" (String "145" "")))).
Proof. reflexivity. Qed.

(** C2, as stated with an ASCII hyphen-minus in "Wi-Fi", fails: for
    "Is there wifi?" the premises hold and the reply differs from that
    string (the code's literal has U+2011 where the claim has U+002D). *)
Lemma wifi_reply_ascii_hyphen_counterexample :
  mentions wifi_keywords (ascii_strip (ascii_lower "Is there wifi?")) /\
  mentions_none (check_in_keywords ++ check_out_keywords)%list
                (ascii_strip (ascii_lower "Is there wifi?")) /\
  generate_ai_reply ascii_lower ascii_strip "Is there wifi?"
  <> "Yes, complimentary high-speed Wi-Fi is available throughout the property.".
Proof.
  split; [|split].
  - exists "wifi". split; [now left|]. exists "is there ", "?". reflexivity.
  - apply mentions_none_by_search. reflexivity.
  - vm_compute. discriminate.
Qed.

(** An instance: upper case and surrounding blanks are normalised away. *)
Lemma wifi_reply_witness :
  generate_ai_reply ascii_lower ascii_strip "  Is the INTERNET fast?  "
  = "Yes, complimentary high-speed Wi‑Fi is available throughout the property.".
Proof.
  apply (wifi_reply ascii_lower ascii_strip "  Is the INTERNET fast?  ").
  - exists "internet". split; [simpl; tauto|].
    exists "is the ", " fast?". reflexivity.
  - apply mentions_none_by_search. reflexivity.
Defined.

(** C3: a message whose normalised text mentions both a check-in keyword
    and a Wi-Fi keyword gets the check-in reply, the check-in test coming
    first; so does "What time is check-in and is there wifi?". *)
Theorem check_in_beats_wifi :
  (forall (lower strip : string -> string) (message : string),
      mentions check_in_keywords (strip (lower message)) ->
      mentions wifi_keywords (strip (lower message)) ->
      generate_ai_reply lower strip message
      = "Check-in is at 3:00 PM. Early check-in is subject to availability.")
  /\ generate_ai_reply ascii_lower ascii_strip "What time is check-in and is there wifi?"
     = "Check-in is at 3:00 PM. Early check-in is subject to availability.".
Proof.
  split.
  - intros lower strip message Hin _. now apply check_in_first.
  - reflexivity.
Qed.

(** An instance with the third check-in keyword and an upper-case text. *)
Lemma check_in_beats_wifi_witness :
  generate_ai_reply ascii_lower ascii_strip "Is there WiFi on ARRIVAL?"
  = "Check-in is at 3:00 PM. Early check-in is subject to availability.".
Proof.
  apply (proj1 check_in_beats_wifi ascii_lower ascii_strip "Is there WiFi on ARRIVAL?").
  - exists "arrival". split; [simpl; tauto|].
    exists "is there wifi on ", "?". reflexivity.
  - exists "wifi". split; [simpl; tauto|].
    exists "is there ", " on arrival?". reflexivity.
Defined.

(** C9: a message whose normalised text mentions no keyword of any of the
    seven categories gets the fallback reply; so does
    "Can I get extra towels?". *)
Theorem fallback_reply :
  (forall (lower strip : string -> string) (message : string),
      mentions_none all_keywords (strip (lower message)) ->
      generate_ai_reply lower strip message
      = "Thanks for reaching out! How can I assist with your stay, booking, or questions today?")
  /\ generate_ai_reply ascii_lower ascii_strip "Can I get extra towels?"
     = "Thanks for reaching out! How can I assist with your stay, booking, or questions today?".
Proof.
  split.
  - intros lower strip message. apply fallback_when_nothing_matches.
  - reflexivity.
Qed.

(** An instance: no keyword occurs in "do you have a laundry room?". *)
Lemma fallback_reply_witness :
  generate_ai_reply ascii_lower ascii_strip "Do you have a Laundry Room?"
  = "Thanks for reaching out! How can I assist with your stay, booking, or questions today?".
Proof.
  apply (proj1 fallback_reply ascii_lower ascii_strip "Do you have a Laundry Room?").
  apply mentions_none_by_search. reflexivity.
Defined.

(** ** Record validation *)

Lemma vapply_keeps_first_error {A B} (e : string * ErrorType)
    (f : validated (A -> B)) (x : validated A) :
  (exists rest, f = inl (e :: rest)) -> exists rest, vapply f x = inl (e :: rest).
Proof.
  intros [rest ->]. destruct x as [ex|a]; simpl; eauto.
Qed.

(** C6: [Property(...)] without a name fails, the error list reporting the
    missing [name]; [Property(name=n)] succeeds and every other field takes
    its declared default. *)
Theorem property_name_required_and_defaults (validate_email : string -> option string) :
  (forall kw : Property.kwargs,
      Property.kw_name kw = None ->
      exists errors,
        Property.new validate_email kw = inl errors /\ In ("name", missing) errors)
  /\ (forall n : string,
        Property.new validate_email (Property.only_name n)
        = inr {| Property.name := n;
                 Property.description := None;
                 Property.address := None;
                 Property.city := None;
                 Property.country := None;
                 Property.phone := None;
                 Property.email := None;
                 Property.website := None;
                 Property.check_in_time := Some "3:00 PM";
                 Property.check_out_time := Some "11:00 AM";
                 Property.amenities := ["Free Wi‑Fi"; "Parking"; "Breakfast available"];
                 Property.currency := "USD";
                 Property.timezone := None;
                 Property.rooms_total := 20;
                 Property.rooms_available := 20;
                 Property.min_rate := Some 79.0%float;
                 Property.max_rate := Some 249.0%float |}).
Proof.
  split.
  - intros kw Hname.
    assert (H : exists rest, Property.new validate_email kw = inl (("name", missing) :: rest)).
    { unfold Property.new. rewrite Hname.
      do 16 apply vapply_keeps_first_error. exists []. reflexivity. }
    destruct H as [rest ->]. exists (("name", missing) :: rest).
    split; [reflexivity | now left].
  - intros n. reflexivity.
Qed.

(** An instance: [Property()] with no argument at all. *)
Lemma property_name_required_and_defaults_witness :
  exists errors,
    Property.new (fun e => Some e) Property.no_kwargs = inl errors
    /\ In ("name", missing) errors.
Proof.
  apply (proj1 (property_name_required_and_defaults (fun e => Some e)) Property.no_kwargs).
  reflexivity.
Defined.

(** C7: [BookingRequest(...)] with a full name, an e-mail address the
    validator accepts and any two dates succeeds and keeps both dates,
    whatever their order: nothing relates [check_out] to [check_in]. *)
Theorem booking_dates_unconstrained (validate_email : string -> option string)
    (kw : BookingRequest.kwargs) (full_name email normalised : string) (d1 d2 : date) :
  BookingRequest.kw_full_name kw = Some full_name ->
  BookingRequest.kw_email kw = Some email ->
  validate_email email = Some normalised ->
  BookingRequest.kw_check_in kw = Some d1 ->
  BookingRequest.kw_check_out kw = Some d2 ->
  exists br,
    BookingRequest.new validate_email kw = inr br
    /\ BookingRequest.full_name br = full_name
    /\ BookingRequest.email br = normalised
    /\ BookingRequest.check_in br = d1
    /\ BookingRequest.check_out br = d2.
Proof.
  intros Hname Hemail Hvalid Hin Hout.
  unfold BookingRequest.new, required_email.
  rewrite Hname, Hemail, Hvalid, Hin, Hout. cbn.
  eexists. split; [reflexivity|]. cbn. repeat split.
Qed.

(** An instance where [check_out] is nine days before [check_in]. *)
Lemma booking_dates_unconstrained_witness :
  date_ltb (Build_date 2025 6 1) (Build_date 2025 6 10) = true
  /\ exists br,
       BookingRequest.new has_at_sign
         (BookingRequest.required_only "Ada Guest" "guest@example.com"
            (Build_date 2025 6 10) (Build_date 2025 6 1)) = inr br
       /\ BookingRequest.full_name br = "Ada Guest"
       /\ BookingRequest.email br = "guest@example.com"
       /\ BookingRequest.check_in br = Build_date 2025 6 10
       /\ BookingRequest.check_out br = Build_date 2025 6 1.
Proof.
  split; [reflexivity|].
  apply (booking_dates_unconstrained has_at_sign
           (BookingRequest.required_only "Ada Guest" "guest@example.com"
              (Build_date 2025 6 10) (Build_date 2025 6 1))
           "Ada Guest" "guest@example.com" "guest@example.com"
           (Build_date 2025 6 10) (Build_date 2025 6 1));
    reflexivity.
Defined.

(** ** HTTP API layer *)

Arguments generate_ai_reply : simpl never.

Lemma persisted_app (l1 l2 : list Event) :
  persisted (l1 ++ l2)%list = (persisted l1 ++ persisted l2)%list.
Proof.
  induction l1 as [|ev l1 IH]; [reflexivity|].
  destruct ev as [c d [e|i]| |]; simpl; now rewrite IH.
Qed.

(** Case analysis on what the store answers to the next operation. *)
Ltac store_answers :=
  repeat match goal with
    | |- context [create_outcome ?env ?n ?c ?d] =>
        destruct (create_outcome env n c d) eqn:?; cbn
    | |- context [get_outcome ?env ?n ?c ?q ?l] =>
        destruct (get_outcome env n c q l) eqn:?; cbn
    | |- context [list_outcome ?env ?n] =>
        destruct (list_outcome env n) eqn:?; cbn
    | |- context [db_live ?env] => destruct (db_live env) eqn:?; cbn
    | |- context [environ ?env ?v] => destruct (environ env v) eqn:?; cbn
    end.

Section Handlers.

Variable lower : string -> string.
Variable strip : string -> string.

Lemma run_app_cases (env : Env) (n : nat) (req : Request) :
  data_route req = true ->
  (Forall succeeded (fst (run env n (app lower strip req)))
   /\ exists body, snd (run env n (app lower strip req)) = inr body)
  \/ (exists pre ev e,
        fst (run env n (app lower strip req)) = (pre ++ [ev])%list
        /\ Forall succeeded pre
        /\ failure ev = Some e
        /\ snd (run env n (app lower strip req)) = inl (HTTPException 500 (str_exc e))).
Proof.
  intros Hdata.
  destruct req; try discriminate Hdata; cbn; store_answers.
  all: try (left; split; [repeat constructor | eexists; reflexivity]).
  all: right.
  all: first
    [ eexists [], _, _;
      split; [reflexivity | split; [constructor | split; reflexivity]]
    | eexists [_], _, _;
      split; [reflexivity | split; [repeat constructor | split; reflexivity]] ].
Qed.


(** C8: on every data route, a store operation that raises [e] is the
    last operation of the run (everything before it went through, nothing
    is tried after it) and the handler ends by raising
    [HTTPException(500, str(e))]; no other exception ever leaves a
    handler. *)
Theorem store_error_becomes_500 (env : Env) (n : nat) (req : Request)
    (log : list Event) (out : Exception + pyval) :
  data_route req = true ->
  run env n (app lower strip req) = (log, out) ->
  (forall ev e, In ev log -> failure ev = Some e ->
     (exists pre, log = (pre ++ [ev])%list /\ Forall succeeded pre)
     /\ out = inl (HTTPException 500 (str_exc e)))
  /\ (forall raised, out = inl raised ->
        exists ev e, In ev log /\ failure ev = Some e
                     /\ raised = HTTPException 500 (str_exc e)).
Proof.
  intros Hdata Hrun.
  destruct (run_app_cases env n req Hdata)
    as [[Hok [body Hbody]] | (pre & ev0 & e0 & Hlog & Hpre & Hfail & Hout)];
    rewrite Hrun in *; simpl in *.
  - split.
    + intros ev e Hin Hf.
      rewrite Forall_forall in Hok. specialize (Hok ev Hin).
      unfold succeeded in Hok. congruence.
    + intros raised ->. discriminate.
  - subst log out. split.
    + intros ev e Hin Hf. apply in_app_or in Hin as [Hin|[<-|[]]].
      * rewrite Forall_forall in Hpre. specialize (Hpre ev Hin).
        unfold succeeded in Hpre. congruence.
      * split; [exists pre; now split|]. congruence.
    + intros raised [= <-]. exists ev0, e0.
      split; [apply in_or_app; right; now left | now split].
Qed.

Lemma run_app_single_open (env : Env) (n : nat) (req : Request) :
  Forall (fun d => single_open_message (snd (fst d)))
         (persisted (fst (run env n (app lower strip req)))).
Proof.
  destruct req; cbn; store_answers; repeat constructor.
Qed.

(** C4: whatever requests are served and whatever the store answers,
    every conversation document that gets persisted holds exactly one
    message and has status ['open']. *)
Theorem stored_conversations_single_open (env : Env) (n : nat) (reqs : list Request) :
  Forall (fun d => single_open_message (snd (fst d)))
         (persisted (fst (serve lower strip env n reqs))).
Proof.
  revert n; induction reqs as [|req reqs IH]; intros n; simpl.
  - constructor.
  - pose proof (run_app_single_open env n req) as Hreq.
    destruct (run env n (app lower strip req)) as [log out].
    specialize (IH (n + length log)).
    destruct (serve lower strip env (n + length log) reqs) as [logs outs].
    simpl in *. rewrite persisted_app. apply Forall_app. now split.
Qed.

(** C1: when both inserts go through, [start_conversation] persists the
    user document and then the assistant document, as two separate
    documents of the ["conversation"] collection, and returns the first
    identifier with the reply; the response has these two fields only, so
    the second identifier [id2] is in none of them. *)
Theorem start_conversation_success (env : Env) (n : nat) (payload : ConversationIn)
    (id1 id2 : string) :
  let ai_reply := generate_ai_reply lower strip (message payload) in
  create_outcome env n "conversation" (user_document payload) = inr id1 ->
  create_outcome env (S n) "conversation" (assistant_document ai_reply payload) = inr id2 ->
  run env n (start_conversation lower strip payload)
  = ([EvCreate "conversation" (user_document payload) (inr id1);
      EvCreate "conversation" (assistant_document ai_reply payload) (inr id2)],
     inr (VDict [("conversation_id", VStr id1); ("reply", VStr ai_reply)]))
  /\ persisted (fst (run env n (start_conversation lower strip payload)))
     = [("conversation", user_document payload, id1);
        ("conversation", assistant_document ai_reply payload, id2)].
Proof.
  intros ai_reply H1 H2. subst ai_reply.
  unfold user_document, assistant_document in *.
  cbn. cbv [Conversation.new ConversationMessage.new].
  rewrite H1. cbn. cbv [Conversation.new ConversationMessage.new].
  rewrite H2. split; reflexivity.
Qed.

(** C5: [add_message] behaves the same for any two values of the
    [conversation_id] path parameter.  Against one store the two runs
    coincide, operation for operation; and any two runs that end normally,
    even against different stores, return the same body, [{"reply": ...}]
    and nothing else, and persist the same two documents, the user one
    and the assistant one. *)
Theorem add_message_ignores_conversation_id (cid1 cid2 : string)
    (payload : ConversationIn) :
  (forall env n,
      run env n (add_message lower strip cid1 payload)
      = run env n (add_message lower strip cid2 payload))
  /\ (forall env1 env2 n1 n2 log1 log2 body1 body2,
        run env1 n1 (add_message lower strip cid1 payload) = (log1, inr body1) ->
        run env2 n2 (add_message lower strip cid2 payload) = (log2, inr body2) ->
        let ai_reply := generate_ai_reply lower strip (message payload) in
        body1 = VDict [("reply", VStr ai_reply)]
        /\ body2 = body1
        /\ map fst (persisted log1)
           = [("conversation", user_document payload);
              ("conversation", assistant_document ai_reply payload)]
        /\ map fst (persisted log2) = map fst (persisted log1)).
Proof.
  split; [reflexivity|].
  intros env1 env2 n1 n2 log1 log2 body1 body2.
  cbn. store_answers; intros H1; try discriminate H1.
  all: store_answers; intros H2; try discriminate H2.
  injection H1 as <- <-. injection H2 as <- <-.
  repeat split.
Qed.

(** C10: on both conversation routes, a message with role ['assistant']
    in a persisted conversation document has the [lang] of the request;
    and when the inserts go through, the assistant document persisted is
    the one built from the reply and the request's [lang]. *)
Theorem assistant_document_keeps_lang (env : Env) (n : nat)
    (conversation_id : string) (payload : ConversationIn) (handler : Eff pyval) :
  handler = start_conversation lower strip payload
  \/ handler = add_message lower strip conversation_id payload ->
  (forall collection c doc_id m,
      In (collection, MConversation c, doc_id) (persisted (fst (run env n handler))) ->
      In m (Conversation.messages c) ->
      ConversationMessage.role m = ConversationMessage.assistant ->
      ConversationMessage.lang m = lang payload)
  /\ (Forall succeeded (fst (run env n handler)) ->
      exists doc_id,
        In ("conversation",
            assistant_document (generate_ai_reply lower strip (message payload)) payload,
            doc_id)
           (persisted (fst (run env n handler)))).
Proof.
  intros [-> | ->]; cbn; store_answers; split.
  all: try (intros collection c doc_id m Hin Hm Hrole; simpl in Hin;
            repeat (destruct Hin as [[= <- <- <-] | Hin];
                    [destruct Hm as [<- | []]; reflexivity |]);
            now destruct Hin).
  all: intros Hok.
  all: try (exfalso; repeat match goal with
              | H : Forall _ (_ :: _) |- _ => inversion H; subst; clear H
              end; discriminate).
  all: eexists; simpl; right; left; reflexivity.
Qed.

End Handlers.

(** An instance: [POST /api/leads] against a store whose handle is absent. *)
Lemma store_error_becomes_500_witness :
  (forall ev e,
      In ev [EvCreate "lead" (MLead (Lead.Build_t None None None None None Lead.new_))
               (inl (Error "Database not available"))] ->
      failure ev = Some e ->
      (exists pre,
          [EvCreate "lead" (MLead (Lead.Build_t None None None None None Lead.new_))
             (inl (Error "Database not available"))] = (pre ++ [ev])%list
          /\ Forall succeeded pre)
      /\ @inl Exception pyval (HTTPException 500 "Database not available")
         = inl (HTTPException 500 (str_exc e)))
  /\ (forall raised,
         @inl Exception pyval (HTTPException 500 "Database not available") = inl raised ->
         exists ev e,
           In ev [EvCreate "lead" (MLead (Lead.Build_t None None None None None Lead.new_))
                    (inl (Error "Database not available"))]
           /\ failure ev = Some e /\ raised = HTTPException 500 (str_exc e)).
Proof.
  apply (store_error_becomes_500 ascii_lower ascii_strip absent_store 0
           (POST_leads (Lead.Build_t None None None None None Lead.new_)));
    reflexivity.
Defined.

(** An instance: the pets question against a store where all goes through. *)
Lemma start_conversation_success_witness :
  run healthy_store 0 (start_conversation ascii_lower ascii_strip sample_payload)
  = ([EvCreate "conversation" (user_document sample_payload) (inr "id-0");
      EvCreate "conversation"
        (assistant_document "We are pet-friendly for select rooms. A cleaning fee may apply."
           sample_payload) (inr "id-1")],
     inr (VDict [("conversation_id", VStr "id-0");
                 ("reply", VStr "We are pet-friendly for select rooms. A cleaning fee may apply.")]))
  /\ persisted (fst (run healthy_store 0
                       (start_conversation ascii_lower ascii_strip sample_payload)))
     = [("conversation", user_document sample_payload, "id-0");
        ("conversation",
         assistant_document "We are pet-friendly for select rooms. A cleaning fee may apply."
           sample_payload, "id-1")].
Proof.
  apply (start_conversation_success ascii_lower ascii_strip healthy_store 0
           sample_payload "id-0" "id-1");
    reflexivity.
Defined.

(** An instance: two path parameters, two different moments of the store. *)
Lemma add_message_ignores_conversation_id_witness :
  let ai_reply := generate_ai_reply ascii_lower ascii_strip (message sample_payload) in
  VDict [("reply", VStr "We are pet-friendly for select rooms. A cleaning fee may apply.")]
  = VDict [("reply", VStr ai_reply)]
  /\ VDict [("reply", VStr "We are pet-friendly for select rooms. A cleaning fee may apply.")]
     = VDict [("reply", VStr "We are pet-friendly for select rooms. A cleaning fee may apply.")]
  /\ map fst (persisted (fst (run healthy_store 0
                 (add_message ascii_lower ascii_strip "abc" sample_payload))))
     = [("conversation", user_document sample_payload);
        ("conversation", assistant_document ai_reply sample_payload)]
  /\ map fst (persisted (fst (run healthy_store 7
                 (add_message ascii_lower ascii_strip "no-such-conversation" sample_payload))))
     = map fst (persisted (fst (run healthy_store 0
                 (add_message ascii_lower ascii_strip "abc" sample_payload)))).
Proof.
  apply (proj2 (add_message_ignores_conversation_id ascii_lower ascii_strip
                  "abc" "no-such-conversation" sample_payload)
           healthy_store healthy_store 0 7);
    reflexivity.
Defined.

(** An instance: the assistant document of [add_message] is persisted. *)
Lemma assistant_document_keeps_lang_witness :
  exists doc_id,
    In ("conversation",
        assistant_document
          (generate_ai_reply ascii_lower ascii_strip (message sample_payload)) sample_payload,
        doc_id)
       (persisted (fst (run healthy_store 0
                          (add_message ascii_lower ascii_strip "abc" sample_payload)))).
Proof.
  apply (proj2 (assistant_document_keeps_lang ascii_lower ascii_strip healthy_store 0
                  "abc" sample_payload
                  (add_message ascii_lower ascii_strip "abc" sample_payload)
                  (or_intror eq_refl))).
  repeat constructor.
Defined.

(** * Further properties

    ** Reply generator *)

Lemma generate_ai_reply_table (lower strip : string -> string) (message : string) :
  generate_ai_reply lower strip message = first_match reply_table (strip (lower message)).
Proof. reflexivity. Qed.

Lemma first_match_priority (before after : list (list string * string))
    (keywords : list string) (response text : string) :
  mentions keywords text ->
  (forall row, In row before -> mentions_none (fst row) text) ->
  first_match (before ++ (keywords, response) :: after)%list text = response.
Proof.
  intros Hhit Hnone. induction before as [|[ks r] before IH]; simpl.
  - now rewrite (mentions_any_in _ _ Hhit).
  - rewrite (any_in_false ks text (Hnone (ks, r) (or_introl eq_refl))).
    apply IH. intros row Hrow. apply Hnone. now right.
Qed.

(** X1: the reply is the response of the first category, in the order of
    the tests, one of whose keywords occurs in the normalised text: a
    category answers as soon as no category before it is mentioned,
    whatever the categories after it. *)
Theorem reply_is_first_matching_category (lower strip : string -> string)
    (message : string) (before after : list (list string * string))
    (keywords : list string) (response : string) :
  reply_table = (before ++ (keywords, response) :: after)%list ->
  mentions keywords (strip (lower message)) ->
  (forall row, In row before -> mentions_none (fst row) (strip (lower message))) ->
  generate_ai_reply lower strip message = response.
Proof.
  intros Htable Hhit Hnone.
  rewrite generate_ai_reply_table, Htable.
  now apply first_match_priority.
Qed.

(** An instance: "cat" occurs inside "location", and nothing of the four
    categories before pets does, so the pets reply is given. *)
Lemma reply_is_first_matching_category_witness :
  generate_ai_reply ascii_lower ascii_strip "What is your exact LOCATION?"
  = "We are pet-friendly for select rooms. A cleaning fee may apply.".
Proof.
  apply (reply_is_first_matching_category ascii_lower ascii_strip
           "What is your exact LOCATION?"
           (firstn 4 reply_table) (skipn 5 reply_table) pets_keywords).
  - reflexivity.
  - exists "cat". split; [simpl; tauto|].
    exists "what is your exact lo", "ion?". reflexivity.
  - intros row Hrow. apply mentions_none_by_search.
    simpl in Hrow.
    destruct Hrow as [<-|[<-|[<-|[<-|[]]]]]; reflexivity.
Defined.

Lemma first_match_in_table (table : list (list string * string)) (text : string) :
  In (first_match table text) (map snd table ++ [fallback_response])%list.
Proof.
  induction table as [|[ks r] table IH]; simpl.
  - now left.
  - destruct (any_in ks text); [now left | now right].
Qed.

(** X2: whatever the message, the reply is one of the eight fixed texts,
    the seven category responses and the fallback; it is never empty and
    never built from the message. *)
Theorem reply_is_canned (lower strip : string -> string) (message : string) :
  In (generate_ai_reply lower strip message)
     (map snd reply_table ++ [fallback_response])%list
  /\ generate_ai_reply lower strip message <> "".
Proof.
  assert (H : In (generate_ai_reply lower strip message)
                 (map snd reply_table ++ [fallback_response])%list).
  { rewrite generate_ai_reply_table. apply first_match_in_table. }
  split; [exact H|].
  intros Hempty. rewrite Hempty in H. simpl in H.
  repeat (destruct H as [H|H]; [discriminate H|]). exact H.
Qed.

(** *** Trimming never changes the reply *)













(** ** Record validation *)


Lemma vapply_inr_inv {A B} (f : validated (A -> B)) (x : validated A) (b : B) :
  f <*> x = inr b -> exists g a, f = inr g /\ x = inr a /\ b = g a.
Proof.
  destruct f as [ef|g], x as [ex|a]; simpl; try discriminate.
  intros [= <-]. now exists g, a.
Qed.

Lemma reports_left {A B} (f : validated (A -> B)) (x : validated A)
    (field : string) (kind : ErrorType) :
  reports f field kind -> reports (f <*> x) field kind.
Proof.
  intros (errors & -> & Hin). destruct x as [ex|a]; simpl.
  - exists (errors ++ ex)%list. split; [reflexivity | apply in_or_app; now left].
  - now exists errors.
Qed.

Lemma reports_right {A B} (f : validated (A -> B)) (x : validated A)
    (field : string) (kind : ErrorType) :
  reports x field kind -> reports (f <*> x) field kind.
Proof.
  intros (errors & -> & Hin). destruct f as [ef|g]; simpl.
  - exists (ef ++ errors)%list. split; [reflexivity | apply in_or_app; now right].
  - now exists errors.
Qed.









Lemma required_inr {A} (field : string) (v : option A) (a : A) :
  required field v = inr a -> v = Some a.
Proof. destruct v; simpl; congruence. Qed.

Lemma int_ge0_sound (field : string) (default : Z) (v : option Z) (z : Z) :
  (0 <= default)%Z -> defaulted_int_ge0 field default v = inr z -> (0 <= z)%Z.
Proof.
  unfold defaulted_int_ge0. intros Hd. destruct v as [x|].
  - destruct (Z.leb_spec 0 x); [intros [= <-]; assumption | discriminate].
  - now intros [= <-].
Qed.

Lemma float_ge0_sound (field : string) (default : option float)
    (v : option (option float)) (r : option float) :
  rate_ok default -> defaulted_float_ge0 field default v = inr r -> rate_ok r.
Proof.
  unfold defaulted_float_ge0. intros Hd. destruct v as [[x|]|].
  - destruct (PrimFloat.leb 0 x) eqn:Hx; [intros [= <-]; exact Hx | discriminate].
  - now intros [= <-].
  - now intros [= <-].
Qed.

(** Peels a successful construction into its successful field validations. *)
Ltac validated_fields H :=
  repeat match type of H with
    | _ <*> _ = inr _ =>
        let g := fresh "g" in
        let a := fresh "a" in
        let Hx := fresh "Hfield" in
        apply vapply_inr_inv in H as (g & a & H & Hx & ->)
    end.

(** X5: an accepted [Property] carries the name that was passed, room counts
    that are at least zero and rates that are absent or at least zero,
    whether these values were passed or defaulted. *)
Theorem property_validated_invariants (validate_email : string -> option string)
    (kw : Property.kwargs) (p : Property.t) :
  Property.new validate_email kw = inr p ->
  Property.kw_name kw = Some (Property.name p)
  /\ (0 <= Property.rooms_total p)%Z
  /\ (0 <= Property.rooms_available p)%Z
  /\ rate_ok (Property.min_rate p)
  /\ rate_ok (Property.max_rate p).
Proof.
  intros H. unfold Property.new in H. validated_fields H.
  injection H as <-. simpl.
  repeat split.
  - eapply required_inr; eassumption.
  - eapply int_ge0_sound; [|eassumption]; lia.
  - eapply int_ge0_sound; [|eassumption]; lia.
  - eapply float_ge0_sound; [|eassumption]; reflexivity.
  - eapply float_ge0_sound; [|eassumption]; reflexivity.
Qed.

(** An instance: a name, two room counts and two rates are passed. *)
Lemma property_validated_invariants_witness :
  Property.kw_name (property_with_rooms_and_rates "Harbour Inn" 12 3 59 120)
  = Some "Harbour Inn"
  /\ (0 <= 12)%Z /\ (0 <= 3)%Z
  /\ rate_ok (Some 59%float) /\ rate_ok (Some 120%float).
Proof.
  apply (property_validated_invariants has_at_sign
           (property_with_rooms_and_rates "Harbour Inn" 12 3 59 120)
           (Property.Build_t "Harbour Inn" None None None None None None None
              (Some "3:00 PM") (Some "11:00 AM")
              ["Free Wi‑Fi"; "Parking"; "Breakfast available"] "USD" None
              12 3 (Some 59%float) (Some 120%float))).
  reflexivity.
Defined.

(** X6: every violated constraint of [Property] is reported under its own
    field: a negative room count, a rate below zero (or NaN) and a
    malformed e-mail address each put their entry in the error list, whatever
    the other arguments are. *)
Theorem property_reports_each_violation (validate_email : string -> option string)
    (kw : Property.kwargs) :
  (forall z, Property.kw_rooms_total kw = Some z -> (z < 0)%Z ->
     reports (Property.new validate_email kw) "rooms_total" greater_than_equal)
  /\ (forall z, Property.kw_rooms_available kw = Some z -> (z < 0)%Z ->
        reports (Property.new validate_email kw) "rooms_available" greater_than_equal)
  /\ (forall x, Property.kw_min_rate kw = Some (Some x) -> PrimFloat.leb 0 x = false ->
        reports (Property.new validate_email kw) "min_rate" greater_than_equal)
  /\ (forall x, Property.kw_max_rate kw = Some (Some x) -> PrimFloat.leb 0 x = false ->
        reports (Property.new validate_email kw) "max_rate" greater_than_equal)
  /\ (forall e, Property.kw_email kw = Some (Some e) -> validate_email e = None ->
        reports (Property.new validate_email kw) "email" value_error).
Proof.
  unfold Property.new. repeat split.
  - intros z Hz Hneg. do 3 apply reports_left. apply reports_right.
    rewrite Hz. unfold defaulted_int_ge0.
    destruct (Z.leb_spec 0 z); [lia|]. eexists; split; [reflexivity | now left].
  - intros z Hz Hneg. do 2 apply reports_left. apply reports_right.
    rewrite Hz. unfold defaulted_int_ge0.
    destruct (Z.leb_spec 0 z); [lia|]. eexists; split; [reflexivity | now left].
  - intros x Hx Hneg. apply reports_left. apply reports_right.
    rewrite Hx. unfold defaulted_float_ge0. rewrite Hneg.
    eexists; split; [reflexivity | now left].
  - intros x Hx Hneg. apply reports_right.
    rewrite Hx. unfold defaulted_float_ge0. rewrite Hneg.
    eexists; split; [reflexivity | now left].
  - intros e He Hbad. do 10 apply reports_left. apply reports_right.
    rewrite He. unfold optional_email. rewrite Hbad.
    eexists; split; [reflexivity | now left].
Qed.

(** An instance: minus one room, in an otherwise fine call. *)
Lemma property_reports_each_violation_witness :
  reports (Property.new has_at_sign
             (property_with_rooms_and_rates "Harbour Inn" (-1) 3 59 120))
          "rooms_total" greater_than_equal.
Proof.
  apply (proj1 (property_reports_each_violation has_at_sign
                  (property_with_rooms_and_rates "Harbour Inn" (-1) 3 59 120))
           (-1)%Z); [reflexivity | lia].
Defined.

(** X7: the fields of [Property] are validated one by one and never against
    each other: any non-negative room counts and rates are accepted and
    stored as passed, also more rooms available than rooms in total and a
    lowest rate above the highest. *)
Theorem property_fields_not_cross_checked (validate_email : string -> option string)
    (n : string) (total available : Z) (lowest highest : float) :
  (0 <= total)%Z -> (0 <= available)%Z ->
  PrimFloat.leb 0 lowest = true -> PrimFloat.leb 0 highest = true ->
  exists p,
    Property.new validate_email
      (property_with_rooms_and_rates n total available lowest highest) = inr p
    /\ Property.rooms_total p = total
    /\ Property.rooms_available p = available
    /\ Property.min_rate p = Some lowest
    /\ Property.max_rate p = Some highest.
Proof.
  intros Ht Ha Hl Hh.
  unfold Property.new, property_with_rooms_and_rates, defaulted_int_ge0,
         defaulted_float_ge0.
  cbn [Property.kw_name Property.kw_description Property.kw_address Property.kw_city
       Property.kw_country Property.kw_phone Property.kw_email Property.kw_website
       Property.kw_check_in_time Property.kw_check_out_time Property.kw_amenities
       Property.kw_currency Property.kw_timezone Property.kw_rooms_total
       Property.kw_rooms_available Property.kw_min_rate Property.kw_max_rate].
  rewrite Hl, Hh.
  destruct (Z.leb_spec 0 total); [|lia].
  destruct (Z.leb_spec 0 available); [|lia].
  eexists. split; [reflexivity|]. cbn. repeat split.
Qed.

(** An instance: 30 rooms available out of 10, rates from 300 down to 100. *)
Lemma property_fields_not_cross_checked_witness :
  exists p,
    Property.new has_at_sign (property_with_rooms_and_rates "Harbour Inn" 10 30 300 100)
    = inr p
    /\ Property.rooms_total p = 10%Z
    /\ Property.rooms_available p = 30%Z
    /\ Property.min_rate p = Some 300%float
    /\ Property.max_rate p = Some 100%float.
Proof.
  apply (property_fields_not_cross_checked has_at_sign "Harbour Inn" 10 30 300 100);
    (lia || reflexivity).
Defined.


(** X9: a booking request made of the four required fields only is stored
    with 2 adults, 0 children, currency "USD", no phone, no special
    requests, no estimated rate and no conversation identifier; its e-mail
    address is the validator's normalised form. *)
Theorem booking_defaults (validate_email : string -> option string)
    (full_name email normalised : string) (check_in check_out : date) :
  validate_email email = Some normalised ->
  BookingRequest.new validate_email
    (BookingRequest.required_only full_name email check_in check_out)
  = inr {| BookingRequest.full_name := full_name;
           BookingRequest.email := normalised;
           BookingRequest.phone := None;
           BookingRequest.check_in := check_in;
           BookingRequest.check_out := check_out;
           BookingRequest.adults := 2;
           BookingRequest.children := 0;
           BookingRequest.special_requests := None;
           BookingRequest.estimated_rate := None;
           BookingRequest.currency := "USD";
           BookingRequest.conversation_id := None |}.
Proof.
  intros Hvalid.
  unfold BookingRequest.new, BookingRequest.required_only, required_email.
  cbn [BookingRequest.kw_email]. rewrite Hvalid. reflexivity.
Qed.

(** An instance with the sample validator, which leaves the address as it is. *)
Lemma booking_defaults_witness :
  BookingRequest.new has_at_sign
    (BookingRequest.required_only "Ada Guest" "guest@example.com"
       (Build_date 2025 6 1) (Build_date 2025 6 10))
  = inr (BookingRequest.Build_t "Ada Guest" "guest@example.com" None
           (Build_date 2025 6 1) (Build_date 2025 6 10) 2 0 None None "USD" None).
Proof.
  apply (booking_defaults has_at_sign "Ada Guest" "guest@example.com"
           "guest@example.com" (Build_date 2025 6 1) (Build_date 2025 6 10)).
  reflexivity.
Defined.

(** X10: [BookingRequest(...)] names each of its failures: a required
    field left out is reported as missing under its own name, and an
    address the validator rejects is reported under [email]. *)
Theorem booking_reports_each_failure (validate_email : string -> option string)
    (kw : BookingRequest.kwargs) :
  (BookingRequest.kw_full_name kw = None ->
     reports (BookingRequest.new validate_email kw) "full_name" missing)
  /\ (BookingRequest.kw_email kw = None ->
        reports (BookingRequest.new validate_email kw) "email" missing)
  /\ (forall e, BookingRequest.kw_email kw = Some e -> validate_email e = None ->
        reports (BookingRequest.new validate_email kw) "email" value_error)
  /\ (BookingRequest.kw_check_in kw = None ->
        reports (BookingRequest.new validate_email kw) "check_in" missing)
  /\ (BookingRequest.kw_check_out kw = None ->
        reports (BookingRequest.new validate_email kw) "check_out" missing).
Proof.
  unfold BookingRequest.new. repeat split.
  - intros H. do 10 apply reports_left. apply reports_right. rewrite H.
    eexists; split; [reflexivity | now left].
  - intros H. do 9 apply reports_left. apply reports_right. rewrite H.
    eexists; split; [reflexivity | now left].
  - intros e H Hbad. do 9 apply reports_left. apply reports_right. rewrite H.
    unfold required_email. rewrite Hbad.
    eexists; split; [reflexivity | now left].
  - intros H. do 7 apply reports_left. apply reports_right. rewrite H.
    eexists; split; [reflexivity | now left].
  - intros H. do 6 apply reports_left. apply reports_right. rewrite H.
    eexists; split; [reflexivity | now left].
Qed.

(** An instance: "not-an-email" has no "@" for the sample validator. *)
Lemma booking_reports_each_failure_witness :
  reports (BookingRequest.new has_at_sign
             (BookingRequest.required_only "Ada Guest" "not-an-email"
                (Build_date 2025 6 1) (Build_date 2025 6 10)))
          "email" value_error.
Proof.
  apply (proj1 (proj2 (proj2 (booking_reports_each_failure has_at_sign
           (BookingRequest.required_only "Ada Guest" "not-an-email"
              (Build_date 2025 6 1) (Build_date 2025 6 10)))))
           "not-an-email");
    reflexivity.
Defined.



(** ** Health check *)

Lemma str_slice_to_len (n : nat) (s : string) : str_len (str_slice_to n s) <= n.
Proof.
  revert n; induction s as [|c s IH]; intros n; simpl; [lia|].
  destruct (utf8_continuation c) eqn:Hc; simpl.
  - rewrite Hc. apply IH.
  - destruct n as [|n]; simpl; [lia|]. rewrite Hc. specialize (IH n). lia.
Qed.

Lemma str_slice_to_prefix (n : nat) (s : string) :
  exists rest, s = str_slice_to n s ++ rest.
Proof.
  revert n; induction s as [|c s IH]; intros n; simpl; [now exists ""|].
  destruct (utf8_continuation c).
  - destruct (IH n) as [rest Hrest]. exists rest. simpl. now rewrite <- Hrest.
  - destruct n as [|n]; [now exists (String c s)|].
    destruct (IH n) as [rest Hrest]. exists rest. simpl. now rewrite <- Hrest.
Qed.

(** Case analysis on an environment variable: unset, empty or not. *)
Ltac env_values :=
  repeat match goal with
    | |- context [match ?s with EmptyString => _ | String _ _ => _ end] =>
        destruct s; cbn
    end.

(** X13: [GET /test] never raises and never writes.  Whatever the store
    and the process environment do, it returns a dict with the same six
    keys, [backend] being "✅ Running"; it inserts nothing and performs at
    most one store operation, the listing of the collections; and
    [database_url] only says whether the connection string is set, never
    what it is. *)
Theorem test_database_never_raises (env : Env) (n : nat) :
  exists body,
    snd (run env n test_database) = inr (VDict body)
    /\ map fst body = ["backend"; "database"; "database_url"; "database_name";
                       "connection_status"; "collections"]
    /\ dict_get "backend" body = Some (VStr "✅ Running")
    /\ In (dict_get "database_url" body)
          [Some VNone; Some (VStr "✅ Set"); Some (VStr "❌ Not Set")]
    /\ persisted (fst (run env n test_database)) = []
    /\ (fst (run env n test_database) = []
        \/ exists outcome, fst (run env n test_database) = [EvList outcome]).
Proof.
  unfold test_database. cbn. store_answers; env_values.
  all: eexists; split; [reflexivity|]; cbn.
  all: repeat split; try tauto; try (right; eexists; reflexivity).
Qed.

(** X14: without a store handle, [GET /test] performs no store operation
    and, whatever the process environment holds, answers "⚠️ Available but not initialized", with
    [connection_status] "Not Connected" and the other indicators at their
    initial values. *)
Theorem test_database_without_handle (env : Env) (n : nat) :
  db_live env = false ->
  run env n test_database
  = ([], inr (VDict [("backend", VStr "✅ Running");
                     ("database", VStr "⚠️ Available but not initialized");
                     ("database_url", VNone);
                     ("database_name", VNone);
                     ("connection_status", VStr "Not Connected");
                     ("collections", VList [])])).
Proof.
  intros Hdb. unfold test_database. cbn. rewrite Hdb. reflexivity.
Qed.

(** An instance: the store whose handle is absent. *)
Lemma test_database_without_handle_witness :
  run absent_store 0 test_database
  = ([], inr (VDict [("backend", VStr "✅ Running");
                     ("database", VStr "⚠️ Available but not initialized");
                     ("database_url", VNone);
                     ("database_name", VNone);
                     ("connection_status", VStr "Not Connected");
                     ("collections", VList [])])).
Proof.
  apply (test_database_without_handle absent_store 0). reflexivity.
Defined.

(** X15: with a live handle, when listing the collections raises [e] the
    health check still returns: [connection_status] stays "Not Connected",
    [collections] stays empty and [database] is the error prefix followed
    by the first characters of [str(e)], 120 at most. *)
Theorem test_database_listing_fails (env : Env) (n : nat) (e : Exception) :
  db_live env = true ->
  list_outcome env n = inl e ->
  exists body,
    run env n test_database = ([EvList (inl e)], inr (VDict body))
    /\ dict_get "connection_status" body = Some (VStr "Not Connected")
    /\ dict_get "collections" body = Some (VList [])
    /\ dict_get "database" body
       = Some (VStr ("⚠️ Connected but Error: " ++ str_slice_to 120 (str_exc e)))
    /\ str_len (str_slice_to 120 (str_exc e)) <= 120
    /\ exists rest, str_exc e = str_slice_to 120 (str_exc e) ++ rest.
Proof.
  intros Hdb Hlist. unfold test_database. cbn. rewrite Hdb. cbn.
  rewrite Hlist. cbn. store_answers; env_values.
  all: eexists; split; [reflexivity|]; cbn.
  all: repeat split; try apply str_slice_to_len; apply str_slice_to_prefix.
Qed.

(** An instance: the listing fails with "connection lost". *)
Lemma test_database_listing_fails_witness :
  exists body,
    run connection_lost_after_first 0 test_database
    = ([EvList (inl (Error "connection lost"))], inr (VDict body))
    /\ dict_get "connection_status" body = Some (VStr "Not Connected")
    /\ dict_get "collections" body = Some (VList [])
    /\ dict_get "database" body
       = Some (VStr ("⚠️ Connected but Error: " ++ str_slice_to 120 "connection lost"))
    /\ str_len (str_slice_to 120 "connection lost") <= 120
    /\ exists rest, "connection lost" = str_slice_to 120 "connection lost" ++ rest.
Proof.
  apply (test_database_listing_fails connection_lost_after_first 0
           (Error "connection lost"));
    reflexivity.
Defined.

(** X16: with a live handle, when the listing returns, the health check
    reports "✅ Connected & Working" and "Connected" and shows the first ten collection
    names, in the order the store gave them, and no more. *)
Theorem test_database_listing_succeeds (env : Env) (n : nat) (names : list string) :
  db_live env = true ->
  list_outcome env n = inr names ->
  exists body,
    run env n test_database = ([EvList (inr names)], inr (VDict body))
    /\ dict_get "database" body = Some (VStr "✅ Connected & Working")
    /\ dict_get "connection_status" body = Some (VStr "Connected")
    /\ dict_get "collections" body = Some (VList (map VStr (firstn 10 names)))
    /\ length (firstn 10 names) <= 10.
Proof.
  intros Hdb Hlist. unfold test_database. cbn. rewrite Hdb. cbn.
  rewrite Hlist. cbn. store_answers; env_values.
  all: eexists; split; [reflexivity|]; cbn.
  all: repeat split; exact (firstn_le_length 10 names).
Qed.

(** An instance: a healthy store with no collection yet. *)
Lemma test_database_listing_succeeds_witness :
  exists body,
    run healthy_store 0 test_database = ([EvList (inr [])], inr (VDict body))
    /\ dict_get "database" body = Some (VStr "✅ Connected & Working")
    /\ dict_get "connection_status" body = Some (VStr "Connected")
    /\ dict_get "collections" body = Some (VList (map VStr (firstn 10 [])))
    /\ length (firstn 10 (@nil string)) <= 10.
Proof.
  apply (test_database_listing_succeeds healthy_store 0 []); reflexivity.
Defined.

(** ** Routes and the store *)

Section Routes.

Variable lower : string -> string.
Variable strip : string -> string.

(** What holds of the operations of every single request holds of the
    operations of any sequence of requests. *)
Lemma serve_log_Forall (P : Event -> Prop) :
  (forall env n req, Forall P (fst (run env n (app lower strip req)))) ->
  forall env n reqs, Forall P (fst (serve lower strip env n reqs)).
Proof.
  intros Hreq env n reqs. revert n.
  induction reqs as [|req reqs IH]; intros n; simpl; [constructor|].
  specialize (Hreq env n req).
  destruct (run env n (app lower strip req)) as [log out].
  specialize (IH (n + length log)).
  destruct (serve lower strip env (n + length log) reqs) as [logs outs].
  simpl in *. apply Forall_app. now split.
Qed.

(** X17: whatever requests are served, every insert goes to the collection
    named after the class of the record it inserts, in lower case, and
    every query has an empty filter and a fixed cap, 1 on [property] and 50
    on [faq], [lead] and [bookingrequest]; the [conversation] collection is
    never queried. *)
Theorem inserts_routed_queries_capped (env : Env) (n : nat) (reqs : list Request) :
  Forall (fun ev => routed ev /\ capped ev) (fst (serve lower strip env n reqs)).
Proof.
  apply serve_log_Forall. clear env n reqs. intros env n req.
  destruct req; cbn; store_answers; repeat constructor; simpl; tauto.
Qed.



(** X20: a conversation turn is not atomic.  On either conversation route,
    when the insert of the user document goes through and the insert of the
    assistant document raises [e], the handler ends with
    [HTTPException(500, str(e))] while the user document stays persisted,
    alone; its identifier is not returned. *)
Theorem reply_insert_failure_leaves_user_document (env : Env) (n : nat)
    (conversation_id : string) (payload : ConversationIn) (handler : Eff pyval)
    (id1 : string) (e : Exception) :
  handler = start_conversation lower strip payload
  \/ handler = add_message lower strip conversation_id payload ->
  create_outcome env n "conversation" (user_document payload) = inr id1 ->
  create_outcome env (S n) "conversation"
    (assistant_document (generate_ai_reply lower strip (message payload)) payload)
  = inl e ->
  run env n handler
  = ([EvCreate "conversation" (user_document payload) (inr id1);
      EvCreate "conversation"
        (assistant_document (generate_ai_reply lower strip (message payload)) payload)
        (inl e)],
     inl (HTTPException 500 (str_exc e)))
  /\ persisted (fst (run env n handler)) = [("conversation", user_document payload, id1)].
Proof.
  intros Hhandler H1 H2.
  unfold user_document, assistant_document in *.
  destruct Hhandler as [-> | ->];
    cbn; cbv [Conversation.new ConversationMessage.new];
    rewrite H1; cbn; cbv [Conversation.new ConversationMessage.new];
    rewrite H2; split; reflexivity.
Qed.

(** X21: on either conversation route, when the insert of the user
    document raises [e], nothing else is attempted: the assistant document
    is never sent to the store, nothing is persisted and the handler ends
    with [HTTPException(500, str(e))]. *)
Theorem user_insert_failure_stops_turn (env : Env) (n : nat)
    (conversation_id : string) (payload : ConversationIn) (handler : Eff pyval)
    (e : Exception) :
  handler = start_conversation lower strip payload
  \/ handler = add_message lower strip conversation_id payload ->
  create_outcome env n "conversation" (user_document payload) = inl e ->
  run env n handler
  = ([EvCreate "conversation" (user_document payload) (inl e)],
     inl (HTTPException 500 (str_exc e)))
  /\ persisted (fst (run env n handler)) = [].
Proof.
  intros Hhandler H1.
  unfold user_document in *.
  destruct Hhandler as [-> | ->];
    cbn; cbv [Conversation.new ConversationMessage.new];
    rewrite H1; split; reflexivity.
Qed.

(** X22: for one request body, [start_conversation] and [add_message]
    perform the same store operations with the same outcomes; they fail
    together, with the same exception, and when they return, the body of
    [start_conversation] is the body of [add_message] with the identifier
    of the user document put in front under ["conversation_id"]. *)
Theorem start_and_message_differ_by_identifier (env : Env) (n : nat)
    (conversation_id : string) (payload : ConversationIn) :
  fst (run env n (start_conversation lower strip payload))
  = fst (run env n (add_message lower strip conversation_id payload))
  /\ (forall e,
        snd (run env n (start_conversation lower strip payload)) = inl e
        <-> snd (run env n (add_message lower strip conversation_id payload)) = inl e)
  /\ (forall fields,
        snd (run env n (add_message lower strip conversation_id payload))
        = inr (VDict fields) ->
        exists id1,
          create_outcome env n "conversation" (user_document payload) = inr id1
          /\ snd (run env n (start_conversation lower strip payload))
             = inr (VDict (("conversation_id", VStr id1) :: fields))).
Proof.
  unfold user_document. cbn. cbv [Conversation.new ConversationMessage.new].
  store_answers; cbv [Conversation.new ConversationMessage.new];
    store_answers.
  all: split; [reflexivity|]; split; [intros e'; split; intros H; (exact H || discriminate H)|].
  all: intros fields H; try discriminate H.
  injection H as <-. eexists. split; reflexivity.
Qed.


(** X24: the documents of a conversation turn always carry the visitor
    identifier of the request and the source ['web']: on both conversation
    routes every insert, successful or not, is that of a conversation with
    these two values. *)
Theorem conversation_documents_visitor_and_source (env : Env) (n : nat)
    (conversation_id : string) (payload : ConversationIn) (handler : Eff pyval) :
  handler = start_conversation lower strip payload
  \/ handler = add_message lower strip conversation_id payload ->
  Forall (fun ev =>
            exists c outcome,
              ev = EvCreate "conversation" (MConversation c) outcome
              /\ Conversation.visitor_id c = visitor_id payload
              /\ Conversation.source c = Conversation.web)
         (fst (run env n handler)).
Proof.
  intros [-> | ->]; cbn; store_answers; repeat constructor;
    eexists _, _; repeat split.
Qed.

End Routes.



(** An instance: the connection is lost between the two inserts. *)
Lemma reply_insert_failure_leaves_user_document_witness :
  run connection_lost_after_first 0 (start_conversation ascii_lower ascii_strip sample_payload)
  = ([EvCreate "conversation" (user_document sample_payload) (inr "id-0");
      EvCreate "conversation"
        (assistant_document
           (generate_ai_reply ascii_lower ascii_strip (message sample_payload))
           sample_payload)
        (inl (Error "connection lost"))],
     inl (HTTPException 500 (str_exc (Error "connection lost"))))
  /\ persisted (fst (run connection_lost_after_first 0
                       (start_conversation ascii_lower ascii_strip sample_payload)))
     = [("conversation", user_document sample_payload, "id-0")].
Proof.
  apply (reply_insert_failure_leaves_user_document ascii_lower ascii_strip
           connection_lost_after_first 0 "abc" sample_payload
           (start_conversation ascii_lower ascii_strip sample_payload)
           "id-0" (Error "connection lost") (or_introl eq_refl));
    reflexivity.
Defined.

(** An instance: no store handle at all. *)
Lemma user_insert_failure_stops_turn_witness :
  run absent_store 0 (add_message ascii_lower ascii_strip "abc" sample_payload)
  = ([EvCreate "conversation" (user_document sample_payload)
        (inl (Error "Database not available"))],
     inl (HTTPException 500 (str_exc (Error "Database not available"))))
  /\ persisted (fst (run absent_store 0
                       (add_message ascii_lower ascii_strip "abc" sample_payload))) = [].
Proof.
  apply (user_insert_failure_stops_turn ascii_lower ascii_strip absent_store 0
           "abc" sample_payload
           (add_message ascii_lower ascii_strip "abc" sample_payload)
           (Error "Database not available") (or_intror eq_refl));
    reflexivity.
Defined.

(** An instance: the two routes against a healthy store. *)
Lemma start_and_message_differ_by_identifier_witness :
  exists id1,
    create_outcome healthy_store 0 "conversation" (user_document sample_payload) = inr id1
    /\ snd (run healthy_store 0 (start_conversation ascii_lower ascii_strip sample_payload))
       = inr (VDict [("conversation_id", VStr id1);
                     ("reply", VStr "We are pet-friendly for select rooms. A cleaning fee may apply.")]).
Proof.
  apply (proj2 (proj2 (start_and_message_differ_by_identifier ascii_lower ascii_strip
                         healthy_store 0 "abc" sample_payload))
           [("reply", VStr "We are pet-friendly for select rooms. A cleaning fee may apply.")]).
  reflexivity.
Defined.

(** An instance: [add_message] against a healthy store. *)
Lemma conversation_documents_visitor_and_source_witness :
  Forall (fun ev =>
            exists c outcome,
              ev = EvCreate "conversation" (MConversation c) outcome
              /\ Conversation.visitor_id c = "v1"
              /\ Conversation.source c = Conversation.web)
         (fst (run healthy_store 0
                 (add_message ascii_lower ascii_strip "abc" sample_payload))).
Proof.
  apply (conversation_documents_visitor_and_source ascii_lower ascii_strip
           healthy_store 0 "abc" sample_payload
           (add_message ascii_lower ascii_strip "abc" sample_payload)
           (or_intror eq_refl)).
Defined.

(** ** The reply from the message as typed *)







(** ** Handlers have no failure of their own *)

(** X26: on every route, a request all of whose store operations go
    through is answered with a body: a handler raises only when the store
    does. *)
Theorem handler_returns_when_store_does (lower strip : string -> string)
    (env : Env) (n : nat) (req : Request) :
  Forall succeeded (fst (run env n (app lower strip req))) ->
  exists body, snd (run env n (app lower strip req)) = inr body.
Proof.
  destruct req; cbn; store_answers; env_values; intros Hok.
  all: try (eexists; reflexivity).
  all: exfalso;
    repeat match goal with
      | H : Forall _ (_ :: _) |- _ => inversion H; subst; clear H
      end;
    discriminate.
Qed.

(** An instance: the lead list of a healthy store. *)
Lemma handler_returns_when_store_does_witness :
  exists body, snd (run healthy_store 0 (app ascii_lower ascii_strip GET_leads)) = inr body.
Proof.
  apply (handler_returns_when_store_does ascii_lower ascii_strip healthy_store 0 GET_leads).
  repeat constructor.
Defined.
